(** * nGraph: distributed collective backend, dialect-lowering stub and
      LSTMCell defaults

    A shallow embedding of
      - [src/ngraph/distributed/open_mpi.hpp]  (OpenMPIDistributedInterface),
      - [src/contrib/mlir/core/pass/convert/mvn_v0.cpp]  (createOp<v0::MVN>),
      - [src/ngraph/op/fused/lstm_cell.hpp]  (LSTMCell constructor defaults),
    and the properties of the design document that concern them.

    Code that talks to the MPI library is written in a small free monad
    [Proc]: a program either returns, throws a C++ exception, or issues one
    call to the transport and continues with its answer.  The MPI library
    itself is an interpreter of those calls over the state of one process. *)

From Stdlib Require Import ZArith String Ascii DecimalString List Bool Lia.
From Stdlib Require Import Floats.SpecFloat.
From stdpp Require Import base option list strings gmap.

Import ListNotations.
Local Open Scope string_scope.
Local Open Scope list_scope.
Local Open Scope Z_scope.

(** ** Enumerations *)

Module element.

(** [element::Type_t], with the enumerators that the exhaustive switch of
    [ngraph_type_to_mpi_type] lists (the switch is compiled with
    -Wswitch-enum as an error, so it names every enumerator). *)
Inductive Type_t : Set :=
| undefined | dynamic | boolean
| bf16 | f16 | f32 | f64
| i8 | i16 | i32 | i64
| u8 | u16 | u32 | u64.

Definition eqb (a b : Type_t) : bool :=
  match a, b with
  | undefined, undefined | dynamic, dynamic | boolean, boolean
  | bf16, bf16 | f16, f16 | f32, f32 | f64, f64
  | i8, i8 | i16, i16 | i32, i32 | i64, i64
  | u8, u8 | u16, u16 | u32, u32 | u64, u64 => true
  | _, _ => false
  end.

(** Modelled from the spec: [element_type.hpp] is not part of the sources;
    the design document and the comment in [recv]/[send] name bf16 and f16
    as the 16-bit floating formats, next to f32 and f64. *)
Definition is_floating (t : Type_t) : bool :=
  match t with
  | bf16 | f16 | f32 | f64 => true
  | _ => false
  end.

End element.

Module reduction.

(** [reduction::Type]; the enumerators are those of the exhaustive switch
    in [all_reduce]. *)
Inductive Type' : Set := SUM | PROD | MIN | MAX.

End reduction.

(** ** The MPI interface, as the code uses it *)

Inductive MPI_Datatype : Set :=
| MPI_FLOAT | MPI_DOUBLE | MPI_BYTE | MPI_SHORT | MPI_INT | MPI_LONG
| MPI_UNSIGNED_CHAR | MPI_UNSIGNED_SHORT | MPI_UNSIGNED | MPI_UNSIGNED_LONG.

Inductive MPI_Op : Set := MPI_SUM | MPI_PROD | MPI_MIN | MPI_MAX.

Inductive MPI_Comm : Set := MPI_COMM_WORLD.

(** A buffer address ([void*]). *)
Definition ptr := nat.

(** One call into the MPI library, with the arguments the code passes
    (counts, ranks and tags are [int]s).  [MPI_Initialized] and
    [MPI_Finalized] answer through an [int] out parameter; that [int] is the
    answer of the call in this model. *)
Inductive MPI_Call : Set :=
| MPI_Initialized
| MPI_Finalized
| MPI_Init
| MPI_Finalize
| MPI_Comm_size (comm : MPI_Comm)
| MPI_Comm_rank (comm : MPI_Comm)
| MPI_Allreduce (sendbuf recvbuf : ptr) (count : Z)
                (datatype : MPI_Datatype) (op : MPI_Op) (comm : MPI_Comm)
| MPI_Bcast (buffer : ptr) (count : Z) (datatype : MPI_Datatype)
            (root : Z) (comm : MPI_Comm)
| MPI_Recv (buf : ptr) (count : Z) (datatype : MPI_Datatype)
           (source tag : Z) (comm : MPI_Comm)
| MPI_Send (buf : ptr) (count : Z) (datatype : MPI_Datatype)
           (dest tag : Z) (comm : MPI_Comm).

(** ** Exceptions and programs *)

Inductive exn : Set :=
| runtime_error (what : string)      (* std::runtime_error *)
| AssertionFailure (what : string)   (* thrown by NGRAPH_ASSERT *)
| CheckFailure (what : string)       (* thrown by NGRAPH_CHECK *)
| unsupported_op (what : string).    (* ngraph::unsupported_op *)

Inductive Outcome (A : Type) : Type :=
| Returned (a : A)
| Threw (e : exn).
Arguments Returned {A} a.
Arguments Threw {A} e.

(** Programs over the transport. *)
Inductive Proc (A : Type) : Type :=
| Ret (a : A)
| Throw (e : exn)
| Call (c : MPI_Call) (k : Z -> Proc A).
Arguments Ret {A} a.
Arguments Throw {A} e.
Arguments Call {A} c k.

Fixpoint bind {A B : Type} (m : Proc A) (f : A -> Proc B) : Proc B :=
  match m with
  | Ret a => f a
  | Throw e => Throw e
  | Call c k => Call c (fun z => bind (k z) f)
  end.

Definition call (c : MPI_Call) : Proc Z := Call c Ret.

#[global] Instance Proc_ret : MRet Proc := @Ret.
#[global] Instance Proc_bind : MBind Proc := fun A B f m => bind m f.

(** The transport calls a program makes, along the answers [answers] gives
    (used to say that a program performs no transport call at all). *)
Fixpoint calls_of {A : Type} (answers : MPI_Call -> Z) (p : Proc A)
  : list MPI_Call :=
  match p with
  | Ret _ | Throw _ => []
  | Call c k => c :: calls_of answers (k (answers c))
  end.

(** ** Integer types

    [size_t] is an unsigned 64-bit integer and [int] a signed 32-bit one
    (LP64).  MPI takes its counts as [int], so the [size_t count] of the
    interface is narrowed at every transport call. *)

Definition INT_MAX : Z := 2147483647.

Definition int_of_size_t (n : Z) : Z :=
  (n + 2147483648) mod 4294967296 - 2147483648.

(** ** One MPI process

    The state of the MPI library in one process, the log of the calls the
    process has made (oldest first), and the floating-point buffers of the
    process.  A buffer holds IEEE-754 values ([spec_float]) in the format of
    its element type. *)

Record Process : Type := mkProcess {
  mpi_initialized : bool;          (* MPI_Init has been called *)
  mpi_finalized : bool;            (* MPI_Finalize has been called *)
  comm_rank : Z;
  comm_size : Z;
  mpi_log : list MPI_Call;
  memory : gmap ptr (list spec_float)
}.

Definition log_call (c : MPI_Call) (s : Process) : Process :=
  mkProcess (mpi_initialized s) (mpi_finalized s) (comm_rank s) (comm_size s)
            (mpi_log s ++ [c]) (memory s).

Definition set_initialized (s : Process) : Process :=
  mkProcess true (mpi_finalized s) (comm_rank s) (comm_size s)
            (mpi_log s) (memory s).

Definition set_finalized (s : Process) : Process :=
  mkProcess (mpi_initialized s) true (comm_rank s) (comm_size s)
            (mpi_log s) (memory s).

Definition set_memory (m : gmap ptr (list spec_float)) (s : Process) : Process :=
  mkProcess (mpi_initialized s) (mpi_finalized s) (comm_rank s) (comm_size s)
            (mpi_log s) m.

Definition is_init (c : MPI_Call) : bool :=
  match c with MPI_Init => true | _ => false end.

Definition is_finalize (c : MPI_Call) : bool :=
  match c with MPI_Finalize => true | _ => false end.

Fixpoint count_calls (P : MPI_Call -> bool) (l : list MPI_Call) : nat :=
  match l with
  | [] => 0%nat
  | c :: l' => ((if P c then 1 else 0) + count_calls P l')%nat
  end.

Definition init_calls (s : Process) : nat := count_calls is_init (mpi_log s).
Definition finalize_calls (s : Process) : nat :=
  count_calls is_finalize (mpi_log s).

Section Interpreter.

(** What a data-moving call does to the buffers of this process; it
    depends on the other ranks, so the interpreter takes it as given. *)
Variable transport : MPI_Call -> gmap ptr (list spec_float)
                     -> gmap ptr (list spec_float).

(** The MPI library, per the MPI standard: [MPI_Initialized] answers
    whether [MPI_Init] has been called, [MPI_Finalized] whether
    [MPI_Finalize] has; every call is logged. *)
Definition MPI_answer (c : MPI_Call) (s : Process) : Z * Process :=
  let s := log_call c s in
  match c with
  | MPI_Initialized => (Z.b2z (mpi_initialized s), s)
  | MPI_Finalized => (Z.b2z (mpi_finalized s), s)
  | MPI_Init => (0, set_initialized s)
  | MPI_Finalize => (0, set_finalized s)
  | MPI_Comm_size _ => (comm_size s, s)
  | MPI_Comm_rank _ => (comm_rank s, s)
  | _ => (0, set_memory (transport c (memory s)) s)
  end.

Fixpoint run {A : Type} (p : Proc A) (s : Process) : Outcome A * Process :=
  match p with
  | Ret a => (Returned a, s)
  | Throw e => (Threw e, s)
  | Call c k => let '(z, s') := MPI_answer c s in run (k z) s'
  end.

End Interpreter.

(** ** class OpenMPIDistributedInterface *)

(** Modelled from the spec: [ngraph/assertion.hpp] is not part of the
    sources.  The design document calls a failed assertion a fatal
    precondition violation; here it is the exception [AssertionFailure]
    carrying the text streamed into the assertion. *)
Definition NGRAPH_ASSERT (cond : bool) (text : string) : Proc unit :=
  if cond then Ret tt else Throw (AssertionFailure text).

Record OpenMPIDistributedInterface : Type := mkOpenMPI {
  m_name : string;
  m_initialized_mpi : bool;
  m_manage_communicator : bool;
  m_rank : Z;
  m_size : Z
}.

Definition set_m_initialized_mpi (b : bool) (this : OpenMPIDistributedInterface)
  : OpenMPIDistributedInterface :=
  mkOpenMPI (m_name this) b (m_manage_communicator this)
            (m_rank this) (m_size this).

Definition create_context : Proc unit := call MPI_Init;; mret tt.

Definition free_context : Proc unit := call MPI_Finalize;; mret tt.

(** The constructor.  The member initialisers give [m_initialized_mpi],
    [m_rank] and [m_size] their defaults; the initialiser list sets [m_name]
    and [m_manage_communicator].  [is_mpi_initialized == false] compares the
    [int] with 0.  (NGRAPH_DEBUG only writes to the debug log.) *)
Definition ctor (name : string) (manage_communicator : bool)
  : Proc OpenMPIDistributedInterface :=
  let this := mkOpenMPI name false manage_communicator 0 0 in
  if manage_communicator then
    is_mpi_initialized ← call MPI_Initialized;
    NGRAPH_ASSERT (is_mpi_initialized =? 0)
      "Expect to initial MPI comunicator, but MPI had been initialized.";;
    create_context;;
    mret (set_m_initialized_mpi true this)
  else
    is_mpi_initialized ← call MPI_Initialized;
    NGRAPH_ASSERT (is_mpi_initialized =? 0)
      "Expect to reuse existing MPI comunicator, but MPI has not been initialized.";;
    mret this.

(** The default arguments of the constructor. *)
Definition ctor_default : Proc OpenMPIDistributedInterface :=
  ctor "OpenMPI" true.

(** The destructor; it returns the object as it leaves it. *)
Definition dtor (this : OpenMPIDistributedInterface)
  : Proc OpenMPIDistributedInterface :=
  if m_manage_communicator this then
    is_mpi_finalized ← call MPI_Finalized;
    if (is_mpi_finalized =? 0) && m_initialized_mpi this then
      free_context;;
      mret (set_m_initialized_mpi false this)
    else mret this
  else mret this.

Definition get_name (this : OpenMPIDistributedInterface) : string :=
  m_name this.

Definition get_size : Proc Z := call (MPI_Comm_size MPI_COMM_WORLD).

Definition get_rank : Proc Z := call (MPI_Comm_rank MPI_COMM_WORLD).

(** *** Collectives and point-to-point transfers *)

Definition mpi_reduce_type_of (reduce_type : reduction.Type') : MPI_Op :=
  match reduce_type with
  | reduction.SUM => MPI_SUM
  | reduction.PROD => MPI_PROD
  | reduction.MIN => MPI_MIN
  | reduction.MAX => MPI_MAX
  end.

Definition all_reduce (in_ out : ptr) (element_type : element.Type_t)
    (reduce_type : reduction.Type') (count : Z) : Proc unit :=
  data_type ←
    (if element.eqb element_type element.f32 then mret MPI_FLOAT
     else if element.eqb element_type element.f64 then mret MPI_DOUBLE
     else Throw (runtime_error "AllReduce op supports only f32 and f64 types"));
  let mpi_reduce_type := mpi_reduce_type_of reduce_type in
  call (MPI_Allreduce in_ out (int_of_size_t count) data_type mpi_reduce_type
                      MPI_COMM_WORLD);;
  mret tt.

Definition broadcast (in_ : ptr) (element_type : element.Type_t)
    (count : Z) (root_id : Z) : Proc unit :=
  data_type ←
    (if element.eqb element_type element.f64 then mret MPI_DOUBLE
     else if negb (element.eqb element_type element.f32) then
       Throw (runtime_error
                "BroadcastDistributed op supports only f32 and f64 types")
     else mret MPI_FLOAT);
  call (MPI_Bcast in_ (int_of_size_t count) data_type root_id MPI_COMM_WORLD);;
  mret tt.

Definition ngraph_type_to_mpi_type (n_type : element.Type_t)
  : Proc MPI_Datatype :=
  match n_type with
  | element.boolean => mret MPI_BYTE
  | element.f32 => mret MPI_FLOAT
  | element.f64 => mret MPI_DOUBLE
  | element.i8 => mret MPI_BYTE
  | element.i16 => mret MPI_SHORT
  | element.i32 => mret MPI_INT
  | element.i64 => mret MPI_LONG
  | element.u8 => mret MPI_UNSIGNED_CHAR
  | element.u16 => mret MPI_UNSIGNED_SHORT
  | element.u32 => mret MPI_UNSIGNED
  | element.u64 => mret MPI_UNSIGNED_LONG
  | element.bf16 | element.f16 | element.undefined | element.dynamic =>
      Throw (runtime_error "unsupported type")
  end.

(** [MPI_Recv] is called with tag 0 and MPI_STATUS_IGNORE. *)
Definition recv (in_ : ptr) (element_type : element.Type_t)
    (count : Z) (src_id : Z) : Proc unit :=
  data_type ←
    (if element.eqb element_type element.bf16
        || element.eqb element_type element.f16
     then mret MPI_SHORT
     else ngraph_type_to_mpi_type element_type);
  call (MPI_Recv in_ (int_of_size_t count) data_type src_id 0 MPI_COMM_WORLD);;
  mret tt.

Definition send (in_ : ptr) (element_type : element.Type_t)
    (count : Z) (dest_id : Z) : Proc unit :=
  data_type ←
    (if element.eqb element_type element.bf16
        || element.eqb element_type element.f16
     then mret MPI_SHORT
     else ngraph_type_to_mpi_type element_type);
  call (MPI_Send in_ (int_of_size_t count) data_type dest_id 0 MPI_COMM_WORLD);;
  mret tt.

(** ** The all-reduce collective across a group of ranks *)

(** Precision and exponent range of the IEEE-754 format behind an MPI
    floating datatype. *)
Definition float_format (dt : MPI_Datatype) : option (Z * Z) :=
  match dt with
  | MPI_FLOAT => Some (24, 128)
  | MPI_DOUBLE => Some (53, 1024)
  | _ => None
  end.

(** The integer [k] as a floating-point value. *)
Definition float_of_Z (prec emax : Z) (k : Z) : spec_float :=
  binary_normalize prec emax k 0 false.

Definition reduce_op (prec emax : Z) (op : MPI_Op) (x y : spec_float)
  : spec_float :=
  match op with
  | MPI_SUM => SFadd prec emax x y
  | MPI_PROD => SFmul prec emax x y
  | MPI_MIN => if SFltb y x then y else x
  | MPI_MAX => if SFltb x y then y else x
  end.

(** Element-wise reduction of the ranks' contributions, in rank order. *)
Definition reduce_buffers (f : spec_float -> spec_float -> spec_float)
    (contributions : list (list spec_float)) : list spec_float :=
  match contributions with
  | [] => []
  | b :: bs => fold_left (zip_with f) bs b
  end.

(** Modelled from the spec: MPI_Allreduce belongs to the MPI library, not to
    the sources.  As the design document has it, the collective reduces
    [count] elements across all ranks and writes the identical reduced
    result into the receive buffer of every rank: the first [count] elements
    of the receive buffer become the element-wise fold of the ranks'
    contributions.  A negative count is an erroneous call and transfers
    nothing; calls other than MPI_Allreduce on a floating datatype are not
    part of this model and leave the buffers alone. *)
Definition collective (contributions : list (list spec_float))
    (c : MPI_Call) (mem : gmap ptr (list spec_float))
  : gmap ptr (list spec_float) :=
  match c with
  | MPI_Allreduce sendbuf recvbuf count dt op _ =>
      match float_format dt with
      | Some (prec, emax) =>
          if 0 <=? count then
            let n := Z.to_nat count in
            <[recvbuf :=
                reduce_buffers (reduce_op prec emax op)
                               (map (take n) contributions)
                ++ drop n (default [] (mem !! recvbuf))]> mem
          else mem
      | None => mem
      end
  | _ => mem
  end.

(** Every rank of [world] calls [all_reduce] with the same arguments; the
    contribution of a rank is the content of its [in_] buffer. *)
Definition all_reduce_on (world : list Process) (in_ out : ptr)
    (element_type : element.Type_t) (reduce_type : reduction.Type')
    (count : Z) : list (Outcome unit * Process) :=
  let contributions := map (fun p => default [] (memory p !! in_)) world in
  map (run (collective contributions)
           (all_reduce in_ out element_type reduce_type count))
      world.

(** ** Dialect lowering: the converter of v0::MVN *)

(** Modelled from the spec: [ngraph/node.hpp] is not part of the sources.  A
    graph node has a stable operator identity (its type tag, such as
    "v0::MVN") and a description used in diagnostics. *)
Record Node : Type := mkNode {
  type_info : string;
  description : string
}.

(** Modelled from the spec: the target IR is an external system; one of its
    constructs is known here by its name and the values it consumes. *)
Record Operation : Type := mkOperation {
  op_name : string;
  op_operands : list nat
}.

(** Modelled from the spec: [ng_dialect_builder.hpp] is not part of the
    sources.  The lowering pass owns the constructs emitted so far and the
    value map from (node, output index) to lowered values. *)
Record NgDialectConversionPass : Type := mkPass {
  emitted : list Operation;
  tensor_to_value : list (string * nat * nat)
}.

(** A converter gets the pass by reference and the node; it returns the
    construct it built, or throws, and the pass as it leaves it. *)
Abbreviation Converter :=
  (NgDialectConversionPass -> Node ->
   Outcome Operation * NgDialectConversionPass)%type (only parsing).

(** [dynamic_cast<const ngraph::op::v0::MVN*>]: the node itself when its
    dynamic type is v0::MVN, the null pointer otherwise. *)
Definition dynamic_cast_MVN (ngNode : Node) : option Node :=
  if String.eqb (type_info ngNode) "v0::MVN" then Some ngNode else None.

(** [createOp<ngraph::op::v0::MVN>].  The macro NGRAPH_CHECK lives in
    [ngraph/check.hpp], which is not part of the sources, so the converter
    takes it as a parameter: it gets the three things the call site hands
    over (the node, the test [node != nullptr] and the text) and either
    lets control through or throws. *)
Definition createOp_MVN
    (NGRAPH_CHECK : Node -> bool -> string -> Outcome unit)
    (NgDialectObj : NgDialectConversionPass) (ngNode : Node)
  : Outcome Operation * NgDialectConversionPass :=
  let node := dynamic_cast_MVN ngNode in
  match NGRAPH_CHECK ngNode (bool_decide (node <> None))
          ("ngNode " +:+ description ngNode +:+ " is not a v0::MVN") with
  | Threw e => (Threw e, NgDialectObj)
  | Returned _ =>
      (Threw (unsupported_op "Unsupported op 'v0::MVN'"), NgDialectObj)
  end.

(** Two macros a build may have: one that tests the condition the call site
    wrote, and one that tests its first argument (the node pointer, which is
    not null here) and streams the rest into the text. *)
Definition check_condition (ctx : Node) (cond : bool) (text : string)
  : Outcome unit :=
  if cond then Returned tt else Threw (CheckFailure text).

Definition check_first_argument (ctx : Node) (cond : bool) (text : string)
  : Outcome unit :=
  Returned tt.

(** Modelled from the spec: the dispatch of the lowering pass
    ([ng_dialect_builder.cpp]) is not part of the sources.  The design
    document keys the dispatch by the operator identity of the node and
    resolves it in a registration table; looking up an identity that is not
    registered fails with the unsupported-operator condition carrying the
    operator's name, and a registered converter is run as it is. *)
Definition lower (dispatcher : gmap string Converter)
    (pass : NgDialectConversionPass) (node : Node)
  : Outcome Operation * NgDialectConversionPass :=
  match dispatcher !! type_info node with
  | Some convert => convert pass node
  | None => (Threw (unsupported_op (type_info node)), pass)
  end.

(** The exception [e] is the unsupported-operator condition and its text
    carries [name]. *)
Definition carries_name (e : exn) (name : string) : Prop :=
  exists pre post : string, e = unsupported_op (pre +:+ name +:+ post).

(** ** LSTMCell: the defaulted constructor *)

Module LSTMCell.

(** The arguments of the constructor with bias and peepholes, all given.
    [float] values are IEEE-754 binary32. *)
Record Args : Type := mkArgs {
  X : Node; W : Node; R : Node; H_t : Node; C_t : Node;
  hidden_size : Z;
  B : Node; P : Node;
  activations : list string;
  activation_alpha : list spec_float;
  activation_beta : list spec_float;
  clip : spec_float;
  input_forget : bool
}.

(** What a call site may write after [P]: C++ lets it leave out any suffix
    of the defaulted parameters. *)
Inductive Trailing : Type :=
| omitted
| upto_activations (activations : list string)
| upto_alpha (activations : list string) (activation_alpha : list spec_float)
| upto_beta (activations : list string)
            (activation_alpha activation_beta : list spec_float)
| upto_clip (activations : list string)
            (activation_alpha activation_beta : list spec_float)
            (clip : spec_float)
| explicit (activations : list string)
           (activation_alpha activation_beta : list spec_float)
           (clip : spec_float) (input_forget : bool).

(** The default arguments of the declaration. *)
Definition default_activations : list string := ["sigmoid"; "tanh"; "tanh"].
Definition default_activation_alpha : list spec_float := [].
Definition default_activation_beta : list spec_float := [].
Definition default_clip : spec_float := S754_zero false.   (* 0.f *)
Definition default_input_forget : bool := false.

(** The call the compiler makes of a call site. *)
Definition complete (X W R H_t C_t : Node) (hidden_size : Z) (B P : Node)
    (t : Trailing) : Args :=
  match t with
  | omitted =>
      mkArgs X W R H_t C_t hidden_size B P default_activations
             default_activation_alpha default_activation_beta
             default_clip default_input_forget
  | upto_activations a =>
      mkArgs X W R H_t C_t hidden_size B P a
             default_activation_alpha default_activation_beta
             default_clip default_input_forget
  | upto_alpha a al =>
      mkArgs X W R H_t C_t hidden_size B P a al default_activation_beta
             default_clip default_input_forget
  | upto_beta a al be =>
      mkArgs X W R H_t C_t hidden_size B P a al be
             default_clip default_input_forget
  | upto_clip a al be c =>
      mkArgs X W R H_t C_t hidden_size B P a al be c default_input_forget
  | explicit a al be c f =>
      mkArgs X W R H_t C_t hidden_size B P a al be c f
  end.

(** Modelled from the spec: [ngraph/op/util/activation_functions.hpp] is
    not part of the sources.  An activation function descriptor is a name
    plus optional alpha and beta shaping parameters. *)
Record ActivationFunction : Type := mkActivation {
  activation_name : string;
  alpha : option spec_float;
  beta : option spec_float
}.

(** Modelled from the spec: the fixed vocabulary of activation names,
    "sigmoid, tanh, relu, ..."; [more_names] stands for the names the
    design document leaves out. *)
Definition vocabulary (more_names : list string) : list string :=
  "sigmoid" :: "tanh" :: "relu" :: more_names.

Definition recognized (more_names : list string) (name : string) : bool :=
  existsb (String.eqb name) (vocabulary more_names).

(** Modelled from the spec: the constructed cell holds its declared inputs
    and the hyper-parameters the constructor was given: hidden size, the
    three activation descriptors (gate activation f, cell-input activation
    g, output activation h), the clip bound and the gate-coupling flag. *)
Record Cell : Type := mkCell {
  m_X : Node; m_W : Node; m_R : Node; m_H_t : Node; m_C_t : Node;
  cell_hidden_size : Z;
  cell_B : Node; cell_P : Node;
  m_activation_f : ActivationFunction;
  m_activation_g : ActivationFunction;
  m_activation_h : ActivationFunction;
  cell_clip : spec_float;
  m_input_forget : bool
}.

(** The [i]-th activation descriptor of a call: the [i]-th name with the
    alpha and beta parameters at the same position, where there are any. *)
Definition descriptor (a : Args) (i : nat) : option ActivationFunction :=
  name ← activations a !! i;
  Some (mkActivation name (activation_alpha a !! i) (activation_beta a !! i)).

(** Modelled from the spec: the body of the constructor is in
    [lstm_cell.cpp], which is not part of the sources.  Per the design
    document construction validates before it builds: an activation list of
    the wrong length or with an unrecognized name, mismatched hidden sizes
    across W, R, H, C and P, and a negative clip value are construction-time
    validation errors; otherwise the cell holds its inputs and
    hyper-parameters.  Nodes carry no shapes here, so the comparison of the
    hidden sizes is [sizes_agree], given from outside. *)
Definition LSTMCell (more_names : list string) (sizes_agree : Args -> bool)
    (X W R H_t C_t : Node) (hidden_size : Z) (B P : Node) (t : Trailing)
  : Outcome Cell :=
  let a := complete X W R H_t C_t hidden_size B P t in
  if negb (Nat.eqb (length (activations a)) 3) then
    Threw (CheckFailure "activation list of the wrong length")
  else if negb (forallb (recognized more_names) (activations a)) then
    Threw (CheckFailure "unrecognized activation name")
  else if negb (sizes_agree a) then
    Threw (CheckFailure "mismatched hidden sizes")
  else if SFltb (clip a) (S754_zero false) then
    Threw (CheckFailure "negative clip value")
  else
    match descriptor a 0, descriptor a 1, descriptor a 2 with
    | Some f, Some g, Some h =>
        Returned (mkCell X W R H_t C_t hidden_size B P f g h
                         (clip a) (input_forget a))
    | _, _, _ => Threw (CheckFailure "activation list of the wrong length")
    end.

(** Modelled from the spec: the overload that takes neither bias nor
    peepholes nor attributes (lstm_cell.hpp:58-63; its body is in
    [lstm_cell.cpp]).  Missing optional inputs B and P default to zero
    tensors of the correct shape, [8 * hidden_size] and [3 * hidden_size]
    elements, and missing activation descriptors to the fixed triple;
    [zero_tensor] builds the zero tensor of a given size. *)
Definition LSTMCell_plain (more_names : list string)
    (sizes_agree : Args -> bool) (zero_tensor : Z -> Node)
    (X W R H_t C_t : Node) (hidden_size : Z) : Outcome Cell :=
  LSTMCell more_names sizes_agree X W R H_t C_t hidden_size
           (zero_tensor (8 * hidden_size)) (zero_tensor (3 * hidden_size))
           omitted.

(** Modelled from the spec: the overload that takes the attributes and
    neither bias nor peepholes (lstm_cell.hpp:87-97). *)
Definition LSTMCell_attributes (more_names : list string)
    (sizes_agree : Args -> bool) (zero_tensor : Z -> Node)
    (X W R H_t C_t : Node) (hidden_size : Z)
    (activations : list string)
    (activation_alpha activation_beta : list spec_float)
    (clip : spec_float) (input_forget : bool) : Outcome Cell :=
  LSTMCell more_names sizes_agree X W R H_t C_t hidden_size
           (zero_tensor (8 * hidden_size)) (zero_tensor (3 * hidden_size))
           (explicit activations activation_alpha activation_beta clip
                     input_forget).

End LSTMCell.

(** ** Vocabulary of the statements *)

(** [p] makes exactly the transport call [c] and returns. *)
Definition issues (p : Proc unit) (c : MPI_Call) : Prop :=
  p = Call c (fun _ => Ret tt).

(** IEEE-754 format of the floating element types. *)
Definition element_float_format (t : element.Type_t) : option (Z * Z) :=
  match t with
  | element.bf16 => Some (8, 128)
  | element.f16 => Some (11, 16)
  | element.f32 => Some (24, 128)
  | element.f64 => Some (53, 1024)
  | _ => None
  end.

(** What rank [r] contributes to the collective of the design document:
    [count] elements, each of value [r + 1]. *)
Definition rank_contribution (prec emax : Z) (count : Z) (r : nat)
  : list spec_float :=
  replicate (Z.to_nat count) (float_of_Z prec emax (Z.of_nat r + 1)).

(** Rank [r] of a running group of four, with its contribution of three
    binary32 values at address 1. *)
Definition rank_process (r : nat) : Process :=
  mkProcess true false (Z.of_nat r) 4 [MPI_Initialized; MPI_Init]
            {[ 1%nat := rank_contribution 24 128 3 r ]}.

(** A process in which MPI has not been started, with empty buffers. *)
Definition fresh_process : Process := mkProcess false false 0 1 [] ∅.

(** A transport that moves no data. *)
Definition no_transport (c : MPI_Call) (m : gmap ptr (list spec_float))
  : gmap ptr (list spec_float) := m.

(** *** log_print *)

(** What [%s] prints from a character array: the characters before the
    first NUL.  An array that no NUL ends (the empty one among them) makes
    printf read past its end, which has no defined result. *)
Fixpoint c_string (buf : list ascii) : option string :=
  match buf with
  | [] => None
  | c :: rest =>
      if Ascii.eqb c Ascii.zero then Some EmptyString
      else String c <$> c_string rest
  end.

(** [std::string::c_str()] under [%s]: the string carries a NUL of its own
    at its end, so the text stops at an embedded NUL or at the end. *)
Fixpoint c_str (s : string) : string :=
  match s with
  | EmptyString => EmptyString
  | String c rest =>
      if Ascii.eqb c Ascii.zero then EmptyString else String c (c_str rest)
  end.

(** [%d] of an [int]. *)
Definition print_int (n : Z) : string := NilZero.string_of_int (Z.to_int n).

Definition newline : string := String (ascii_of_nat 10) EmptyString.

(** [log_print]: the value of the program is the line that printf writes to
    the standard output; the value [None] marks a call on a buffer that no
    NUL ends, where the source has no defined behaviour. *)
Definition log_print (timestamp : string) (buf : list ascii)
  : Proc (option string) :=
  rank ← get_rank;
  mret (text ← c_string buf;
        Some (c_str timestamp +:+ " [OpenMPI RANK: " +:+ print_int rank
              +:+ "]: " +:+ text +:+ newline)).

(** A program that makes no call to MPI_Init and none to MPI_Finalize,
    whatever the transport answers. *)
Inductive no_lifecycle {A : Type} : Proc A -> Prop :=
| no_lifecycle_Ret (a : A) : no_lifecycle (Ret a)
| no_lifecycle_Throw (e : exn) : no_lifecycle (Throw e)
| no_lifecycle_Call (c : MPI_Call) (k : Z -> Proc A) :
    is_init c = false -> is_finalize c = false ->
    (forall z : Z, no_lifecycle (k z)) ->
    no_lifecycle (Call c k).

(** The object obeys the rule of its constructor: it claims to have
    initialized MPI only when it manages the communicator. *)
Definition consistent (this : OpenMPIDistributedInterface) : Prop :=
  m_initialized_mpi this = true -> m_manage_communicator this = true.

(** * Properties *)

(** ** Bookkeeping of the call log *)

Lemma count_calls_snoc (P : MPI_Call -> bool) (l : list MPI_Call) (c : MPI_Call) :
  count_calls P (l ++ [c]) = (count_calls P l + (if P c then 1 else 0))%nat.
Proof.
  induction l as [|d l IH]; simpl.
  - lia.
  - rewrite IH. lia.
Qed.

Lemma int_of_size_t_small (n : Z) :
  0 <= n <= INT_MAX -> int_of_size_t n = n.
Proof.
  unfold int_of_size_t, INT_MAX. intros Hn.
  rewrite Z.mod_small by lia. lia.
Qed.

Ltac run_step :=
  unfold mbind, Proc_bind, mret, Proc_ret, call, create_context, free_context,
    NGRAPH_ASSERT; simpl.

(** ** Construction and destruction of the interface *)

Section Lifecycle.

Variable transport : MPI_Call -> gmap ptr (list spec_float)
                     -> gmap ptr (list spec_float).

(** C6.  An owning constructor ([manage_communicator = true]) throws the
    assertion failure when MPI reports itself initialized, and then makes
    no call to MPI_Init; otherwise it calls MPI_Init exactly once, leaves
    MPI initialized and returns an object that records that it initialized
    MPI ([m_initialized_mpi]) and owns the communicator. *)
Theorem ctor_owning_initializes_once (name : string) (s : Process) :
  let r := run transport (ctor name true) s in
  if mpi_initialized s then
    r.1 = Threw (AssertionFailure
            "Expect to initial MPI comunicator, but MPI had been initialized.")
    /\ init_calls r.2 = init_calls s
  else
    r.1 = Returned (mkOpenMPI name true true 0 0)
    /\ init_calls r.2 = S (init_calls s)
    /\ mpi_initialized r.2 = true.
Proof.
  destruct s as [ini fin rk sz lg mem]. unfold ctor, init_calls.
  destruct ini; run_step.
  - split; [reflexivity|]. rewrite count_calls_snoc. simpl. lia.
  - split; [reflexivity|]. split; [|reflexivity].
    rewrite !count_calls_snoc. simpl. lia.
Qed.

(** C1.  What the borrowing constructor ([manage_communicator = false])
    does: its assertion is the one of the owning branch, so it throws when
    MPI is initialized (with a text that says MPI has not been
    initialized) and returns normally when MPI is not initialized. *)
Theorem ctor_borrowing_assertion (name : string) (s : Process) :
  (run transport (ctor name false) s).1 =
  if mpi_initialized s then
    Threw (AssertionFailure
      "Expect to reuse existing MPI comunicator, but MPI has not been initialized.")
  else Returned (mkOpenMPI name false false 0 0).
Proof.
  destruct s as [ini fin rk sz lg mem]. unfold ctor.
  destruct ini; run_step; reflexivity.
Qed.

Lemma dtor_finalize_calls (this : OpenMPIDistributedInterface) (s : Process) :
  finalize_calls (run transport (dtor this) s).2 =
  (finalize_calls s +
   (if m_manage_communicator this && m_initialized_mpi this
       && negb (mpi_finalized s) then 1 else 0))%nat.
Proof.
  destruct s as [ini fin rk sz lg mem], this as [nm im mc r z].
  unfold dtor, finalize_calls.
  destruct mc, im, fin; run_step; rewrite ?count_calls_snoc; simpl; lia.
Qed.

Lemma dtor_object (this : OpenMPIDistributedInterface) (s : Process) :
  (run transport (dtor this) s).1 =
  Returned (if m_manage_communicator this && m_initialized_mpi this
               && negb (mpi_finalized s)
            then set_m_initialized_mpi false this else this).
Proof.
  destruct s as [ini fin rk sz lg mem], this as [nm im mc r z].
  unfold dtor. destruct mc, im, fin; run_step; reflexivity.
Qed.

(** C7.  The destructor calls MPI_Finalize at most once, and only for an
    object that owns the communicator.  For an owner that initialized MPI
    the context ends up finalized, by exactly one call of the destructor
    when the context is still live and by none when it had been finalized
    already; the object then forgets the initialization, so that running the
    destructor again finalizes nothing.  A borrowing object never finalizes
    and leaves the process as it was. *)
Theorem dtor_finalizes_once_if_owner
    (this : OpenMPIDistributedInterface) (s : Process) :
  let r := run transport (dtor this) s in
  (finalize_calls r.2 <= S (finalize_calls s))%nat
  /\ (finalize_calls r.2 = S (finalize_calls s) ->
      m_manage_communicator this = true)
  /\ (m_manage_communicator this = true -> m_initialized_mpi this = true ->
      mpi_finalized r.2 = true
      /\ finalize_calls r.2
         = (finalize_calls s + (if mpi_finalized s then 0 else 1))%nat
      /\ forall this', r.1 = Returned this' ->
           finalize_calls (run transport (dtor this') r.2).2
           = finalize_calls r.2)
  /\ (m_manage_communicator this = false ->
      r.1 = Returned this /\ r.2 = s).
Proof.
  cbv zeta. pose proof (dtor_finalize_calls this s) as Hc.
  split; [|split; [|split]].
  - rewrite Hc. destruct (_ && _ && _); lia.
  - rewrite Hc. destruct (m_manage_communicator this); [reflexivity|].
    simpl. lia.
  - intros Hm Hi. split; [|split].
    + destruct s as [ini fin rk sz lg mem], this as [nm im mc r z].
      simpl in Hm, Hi. subst. destruct fin; reflexivity.
    + rewrite Hc, Hm, Hi. destruct (mpi_finalized s); reflexivity.
    + intros this' Hthis'. rewrite dtor_finalize_calls.
      assert (Hdone : m_manage_communicator this' && m_initialized_mpi this'
                      && negb (mpi_finalized (run transport (dtor this) s).2)
                      = false).
      { rewrite dtor_object, Hm, Hi in Hthis'. simpl in Hthis'.
        injection Hthis' as <-.
        destruct s as [ini fin rk sz lg mem], this as [nm im mc r z].
        simpl in Hm, Hi. subst. destruct fin; reflexivity. }
      rewrite Hdone. lia.
  - intros Hm. destruct this as [nm im mc r z]. simpl in Hm. subst mc.
    split; reflexivity.
Qed.

End Lifecycle.

(** Construction of an owner on a fresh process followed by its destruction:
    one MPI_Init and one MPI_Finalize, in that order. *)
Lemma owner_lifecycle_log :
  (let r1 := run no_transport (ctor "OpenMPI" true) fresh_process in
   match r1.1 with
   | Returned this => mpi_log (run no_transport (dtor this) r1.2).2
   | Threw _ => []
   end)
  = [MPI_Initialized; MPI_Init; MPI_Finalized; MPI_Finalize].
Proof. reflexivity. Qed.

(** Witness of C7: an owner that initialized MPI on a live context, and a
    borrowing object. *)
Lemma dtor_finalizes_once_if_owner_witness :
  let owner := mkOpenMPI "OpenMPI" true true 0 0 in
  let live := mkProcess true false 0 4 [MPI_Initialized; MPI_Init] ∅ in
  (finalize_calls (run no_transport (dtor owner) live).2 = 1%nat)
  /\ (run no_transport (dtor (mkOpenMPI "OpenMPI" false false 0 0)) live).2
     = live.
Proof.
  intros owner live.
  pose proof (dtor_finalizes_once_if_owner no_transport owner live)
    as (_ & _ & Hown & _).
  pose proof (dtor_finalizes_once_if_owner no_transport
                (mkOpenMPI "OpenMPI" false false 0 0) live)
    as (_ & _ & _ & Hborrow).
  split.
  - exact (proj1 (proj2 (Hown eq_refl eq_refl))).
  - exact (proj2 (Hborrow eq_refl)).
Defined.

(** ** Element types of the collectives *)

Lemma all_reduce_cases (in_ out : ptr) (et : element.Type_t)
    (rt : reduction.Type') (count : Z) :
  all_reduce in_ out et rt count =
  match et with
  | element.f32 =>
      Call (MPI_Allreduce in_ out (int_of_size_t count) MPI_FLOAT
                          (mpi_reduce_type_of rt) MPI_COMM_WORLD)
           (fun _ => Ret tt)
  | element.f64 =>
      Call (MPI_Allreduce in_ out (int_of_size_t count) MPI_DOUBLE
                          (mpi_reduce_type_of rt) MPI_COMM_WORLD)
           (fun _ => Ret tt)
  | _ => Throw (runtime_error "AllReduce op supports only f32 and f64 types")
  end.
Proof. destruct et; reflexivity. Qed.

(** C3, as stated, fails: bf16 is a floating element type, and [all_reduce]
    throws for it instead of selecting a datatype. *)
Lemma all_reduce_rejects_bf16 :
  element.is_floating element.bf16 = true
  /\ all_reduce 0%nat 1%nat element.bf16 reduction.SUM 1
     = Throw (runtime_error "AllReduce op supports only f32 and f64 types")
  /\ ~ (forall et : element.Type_t,
          element.is_floating et = true ->
          exists c, issues (all_reduce 0%nat 1%nat et reduction.SUM 1) c).
Proof.
  split; [reflexivity|]. split; [reflexivity|].
  intros H. destruct (H element.bf16 eq_refl) as [c Hc].
  unfold issues in Hc. rewrite all_reduce_cases in Hc. discriminate Hc.
Qed.

(** C3, amended.  [all_reduce] selects a transport datatype exactly for f32
    (MPI_FLOAT) and f64 (MPI_DOUBLE) and throws the unsupported-type runtime
    error for every other element type, the floating formats bf16 and f16
    included; [broadcast] accepts the same two element types and throws for
    every other one. *)
Theorem collectives_accept_f32_f64_only
    (in_ out : ptr) (et : element.Type_t) (rt : reduction.Type')
    (count root_id : Z) :
  match et with
  | element.f32 =>
      issues (all_reduce in_ out et rt count)
             (MPI_Allreduce in_ out (int_of_size_t count) MPI_FLOAT
                            (mpi_reduce_type_of rt) MPI_COMM_WORLD)
      /\ issues (broadcast in_ et count root_id)
                (MPI_Bcast in_ (int_of_size_t count) MPI_FLOAT root_id
                           MPI_COMM_WORLD)
  | element.f64 =>
      issues (all_reduce in_ out et rt count)
             (MPI_Allreduce in_ out (int_of_size_t count) MPI_DOUBLE
                            (mpi_reduce_type_of rt) MPI_COMM_WORLD)
      /\ issues (broadcast in_ et count root_id)
                (MPI_Bcast in_ (int_of_size_t count) MPI_DOUBLE root_id
                           MPI_COMM_WORLD)
  | _ =>
      all_reduce in_ out et rt count
      = Throw (runtime_error "AllReduce op supports only f32 and f64 types")
      /\ broadcast in_ et count root_id
         = Throw (runtime_error
                    "BroadcastDistributed op supports only f32 and f64 types")
  end.
Proof. destruct et; split; reflexivity. Qed.

(** C4.  The switch of [all_reduce] gives every reduction kind its MPI
    operation (SUM: MPI_SUM, PROD: MPI_PROD, MIN: MPI_MIN, MAX: MPI_MAX),
    distinct kinds get distinct operations, and for every kind the call that
    [all_reduce] makes on a supported element type carries that operation:
    no kind falls through. *)
Theorem reduce_type_mapping_total :
  mpi_reduce_type_of reduction.SUM = MPI_SUM
  /\ mpi_reduce_type_of reduction.PROD = MPI_PROD
  /\ mpi_reduce_type_of reduction.MIN = MPI_MIN
  /\ mpi_reduce_type_of reduction.MAX = MPI_MAX
  /\ (forall a b : reduction.Type',
        mpi_reduce_type_of a = mpi_reduce_type_of b <-> a = b)
  /\ (forall (in_ out : ptr) (rt : reduction.Type') (count : Z),
        issues (all_reduce in_ out element.f32 rt count)
               (MPI_Allreduce in_ out (int_of_size_t count) MPI_FLOAT
                  (mpi_reduce_type_of rt) MPI_COMM_WORLD)
        /\ issues (all_reduce in_ out element.f64 rt count)
                  (MPI_Allreduce in_ out (int_of_size_t count) MPI_DOUBLE
                     (mpi_reduce_type_of rt) MPI_COMM_WORLD)).
Proof.
  repeat (split; [reflexivity|]). split.
  - intros a b. split; [|congruence].
    destruct a, b; simpl; congruence.
  - intros. split; reflexivity.
Qed.

(** C5.  [send] and [recv] give every element type other than undefined and
    dynamic an MPI datatype: boolean and the eight integer types, f32 and
    f64 get their native datatype, bf16 and f16 travel as MPI_SHORT; for
    undefined and dynamic, and only for them, both throw the runtime error
    "unsupported type" without calling the transport. *)
Theorem send_recv_datatypes
    (in_ : ptr) (et : element.Type_t) (count peer : Z) :
  let sends dt :=
    issues (send in_ et count peer)
           (MPI_Send in_ (int_of_size_t count) dt peer 0 MPI_COMM_WORLD)
    /\ issues (recv in_ et count peer)
              (MPI_Recv in_ (int_of_size_t count) dt peer 0 MPI_COMM_WORLD) in
  match et with
  | element.boolean => sends MPI_BYTE
  | element.i8 => sends MPI_BYTE
  | element.i16 => sends MPI_SHORT
  | element.i32 => sends MPI_INT
  | element.i64 => sends MPI_LONG
  | element.u8 => sends MPI_UNSIGNED_CHAR
  | element.u16 => sends MPI_UNSIGNED_SHORT
  | element.u32 => sends MPI_UNSIGNED
  | element.u64 => sends MPI_UNSIGNED_LONG
  | element.f32 => sends MPI_FLOAT
  | element.f64 => sends MPI_DOUBLE
  | element.bf16 | element.f16 => sends MPI_SHORT
  | element.undefined | element.dynamic =>
      send in_ et count peer = Throw (runtime_error "unsupported type")
      /\ recv in_ et count peer = Throw (runtime_error "unsupported type")
  end.
Proof. destruct et; split; reflexivity. Qed.

(** C10.  With an element type other than f32 and f64, [all_reduce] is the
    program that throws at once: it makes no transport call whatever the
    transport would answer, and run in any process it leaves the process,
    its call log and its buffers (the [out] buffer among them) as they
    were. *)
Theorem all_reduce_unsupported_is_atomic
    (transport : MPI_Call -> gmap ptr (list spec_float)
                 -> gmap ptr (list spec_float))
    (in_ out : ptr) (et : element.Type_t) (rt : reduction.Type') (count : Z)
    (s : Process) :
  et <> element.f32 -> et <> element.f64 ->
  (forall answers, calls_of answers (all_reduce in_ out et rt count) = [])
  /\ run transport (all_reduce in_ out et rt count) s
     = (Threw (runtime_error "AllReduce op supports only f32 and f64 types"),
        s).
Proof.
  intros H32 H64. rewrite all_reduce_cases.
  destruct et; try contradiction; split; reflexivity.
Qed.

Lemma all_reduce_unsupported_is_atomic_witness :
  let s := mkProcess true false 2 4 [MPI_Initialized; MPI_Init]
                     {[ 7%nat := [S754_zero false; S754_zero true] ]} in
  (run (collective [[S754_infinity false]])
       (all_reduce 3%nat 7%nat element.i32 reduction.MAX 2) s).2 = s.
Proof.
  intros s.
  exact (f_equal snd
           (proj2 (all_reduce_unsupported_is_atomic
                     (collective [[S754_infinity false]])
                     3%nat 7%nat element.i32 reduction.MAX 2 s
                     ltac:(discriminate) ltac:(discriminate)))).
Defined.

(** ** All-reduce across four ranks *)

Lemma run_all_reduce_supported
    (transport : MPI_Call -> gmap ptr (list spec_float)
                 -> gmap ptr (list spec_float))
    (in_ out : ptr) (et : element.Type_t) (dt : MPI_Datatype)
    (rt : reduction.Type') (count : Z) (s : Process) :
  (et = element.f32 /\ dt = MPI_FLOAT) \/ (et = element.f64 /\ dt = MPI_DOUBLE) ->
  let c := MPI_Allreduce in_ out (int_of_size_t count) dt
                         (mpi_reduce_type_of rt) MPI_COMM_WORLD in
  run transport (all_reduce in_ out et rt count) s
  = (Returned tt, set_memory (transport c (memory (log_call c s))) (log_call c s)).
Proof. intros [[-> ->]|[-> ->]]; reflexivity. Qed.

Lemma reduce_one_to_four (et : element.Type_t) (prec emax : Z)
    (kind : reduction.Type') (total : Z) :
  et = element.f32 \/ et = element.f64 ->
  element_float_format et = Some (prec, emax) ->
  (kind = reduction.SUM /\ total = 10) \/ (kind = reduction.PROD /\ total = 24) ->
  let f := reduce_op prec emax (mpi_reduce_type_of kind) in
  let v k := float_of_Z prec emax k in
  f (f (f (v 1) (v 2)) (v 3)) (v 4) = v total.
Proof.
  intros [->| ->] Hfmt [[-> ->]|[-> ->]];
    injection Hfmt as <- <-; vm_compute; reflexivity.
Qed.

(** The order in which the four contributions are folded does not matter
    for these values: every order gives 10 for SUM and 24 for PROD, in
    binary32 and in binary64. *)
Lemma reduce_one_to_four_any_order :
  Forall (fun l : list Z =>
            let fold prec emax op :=
              fold_left (reduce_op prec emax op)
                        (map (float_of_Z prec emax) (tail l))
                        (float_of_Z prec emax (hd 0 l)) in
            fold 24 128 MPI_SUM = float_of_Z 24 128 10
            /\ fold 24 128 MPI_PROD = float_of_Z 24 128 24
            /\ fold 53 1024 MPI_SUM = float_of_Z 53 1024 10
            /\ fold 53 1024 MPI_PROD = float_of_Z 53 1024 24)
         (permutations [1; 2; 3; 4]).
Proof.
  let l := eval vm_compute in (permutations [1; 2; 3; 4]) in
  change (permutations [1; 2; 3; 4]) with l.
  repeat (constructor; [cbv zeta; repeat split; vm_compute; reflexivity|]).
  constructor.
Qed.

(** MIN and MAX of the same contributions. *)
Example reduce_min_max :
  let v := float_of_Z 24 128 in
  reduce_buffers (reduce_op 24 128 MPI_MIN) [[v 1]; [v 2]; [v 3]; [v 4]] = [v 1]
  /\ reduce_buffers (reduce_op 24 128 MPI_MAX) [[v 1]; [v 2]; [v 3]; [v 4]] = [v 4].
Proof. split; reflexivity. Qed.

(** C8.  Four ranks, rank [r] holding [count] elements of value [r + 1] in
    its [in_] buffer, all call [all_reduce] on f32 or on f64.  With SUM every
    rank returns normally and finds 10 in each of the [count] elements of
    its [out] buffer; with PROD it finds 24.  ([count] is one that MPI's
    [int] can hold.) *)
Theorem all_reduce_four_ranks
    (in_ out : ptr) (et : element.Type_t) (prec emax : Z) (count : Z)
    (p0 p1 p2 p3 : Process) (kind : reduction.Type') (total : Z) :
  0 <= count <= INT_MAX ->
  et = element.f32 \/ et = element.f64 ->
  element_float_format et = Some (prec, emax) ->
  (forall (r : nat) (p : Process),
     [p0; p1; p2; p3] !! r = Some p ->
     memory p !! in_ = Some (rank_contribution prec emax count r)) ->
  (kind = reduction.SUM /\ total = 10) \/ (kind = reduction.PROD /\ total = 24) ->
  let results := all_reduce_on [p0; p1; p2; p3] in_ out et kind count in
  length results = 4%nat
  /\ forall (r : nat) (res : Outcome unit * Process),
       results !! r = Some res ->
       res.1 = Returned tt
       /\ forall i : nat,
            (i < Z.to_nat count)%nat ->
            default [] (memory res.2 !! out) !! i
            = Some (float_of_Z prec emax total).
Proof.
  intros Hcount Het Hfmt Hin Hkind results.
  split; [reflexivity|].
  assert (Hdt : exists dt, float_format dt = Some (prec, emax) /\
            ((et = element.f32 /\ dt = MPI_FLOAT) \/
             (et = element.f64 /\ dt = MPI_DOUBLE))).
  { destruct Het as [->| ->]; simpl in Hfmt; injection Hfmt as <- <-;
      [exists MPI_FLOAT | exists MPI_DOUBLE]; split; auto. }
  destruct Hdt as (dt & Hff & Hdt).
  assert (Hcontrib :
    map (fun p => default [] (memory p !! in_)) [p0; p1; p2; p3]
    = [rank_contribution prec emax count 0; rank_contribution prec emax count 1;
       rank_contribution prec emax count 2; rank_contribution prec emax count 3]).
  { simpl. rewrite (Hin 0%nat p0 eq_refl), (Hin 1%nat p1 eq_refl),
      (Hin 2%nat p2 eq_refl), (Hin 3%nat p3 eq_refl). reflexivity. }
  intros r res Hres. subst results. unfold all_reduce_on in Hres.
  rewrite Hcontrib in Hres.
  rewrite list_lookup_fmap in Hres.
  destruct ([p0; p1; p2; p3] !! r) as [p|] eqn:Hp; [|discriminate].
  simpl in Hres. injection Hres as <-.
  rewrite (run_all_reduce_supported _ in_ out et dt kind count p Hdt).
  split; [reflexivity|]. intros i Hi.
  rewrite (int_of_size_t_small count Hcount). simpl.
  rewrite Hff.
  destruct (Z.leb_spec 0 count) as [_|Hneg]; [|lia].
  rewrite lookup_insert_eq. simpl.
  unfold rank_contribution.
  rewrite !take_replicate, !Nat.min_id, !zip_with_replicate.
  change (Z.of_nat 0 + 1) with 1. change (Z.of_nat 1 + 1) with 2.
  change (Z.of_nat 2 + 1) with 3. change (Z.of_nat 3 + 1) with 4.
  rewrite (reduce_one_to_four et prec emax kind total Het Hfmt Hkind).
  rewrite lookup_app_l by (rewrite length_replicate; exact Hi).
  apply lookup_replicate_2. exact Hi.
Qed.

Lemma all_reduce_four_ranks_witness :
  match all_reduce_on [rank_process 0; rank_process 1;
                       rank_process 2; rank_process 3]
          1%nat 2%nat element.f32 reduction.SUM 3 !! 2%nat with
  | Some res =>
      res.1 = Returned tt
      /\ default [] (memory res.2 !! 2%nat) !! 1%nat
         = Some (float_of_Z 24 128 10)
  | None => False
  end.
Proof.
  destruct (all_reduce_four_ranks 1%nat 2%nat element.f32 24 128 3
              (rank_process 0) (rank_process 1) (rank_process 2)
              (rank_process 3) reduction.SUM 10) as [_ H].
  - unfold INT_MAX. lia.
  - left. reflexivity.
  - reflexivity.
  - intros [|[|[|[|r]]]] p Hp; try discriminate Hp;
      injection Hp as <-; apply lookup_singleton_eq.
  - left. split; reflexivity.
  - destruct (all_reduce_on _ _ _ _ _ _ !! 2%nat) as [res|] eqn:Hres.
    + destruct (H 2%nat res Hres) as [Hret Hout].
      split; [exact Hret|]. apply Hout. simpl. lia.
    + vm_compute in Hres. discriminate Hres.
Defined.

(** ** Lowering of unsupported operators *)

Lemma carries_name_self (name : string) :
  carries_name (unsupported_op name) name.
Proof.
  exists "", "". f_equal. change (name = name +:+ "").
  induction name as [|a name IH]; [reflexivity|].
  change (String a name = String a (name +:+ "")). f_equal. exact IH.
Qed.

Lemma dynamic_cast_MVN_ok (ngNode : Node) :
  type_info ngNode = "v0::MVN" -> dynamic_cast_MVN ngNode = Some ngNode.
Proof. unfold dynamic_cast_MVN. intros ->. reflexivity. Qed.

Section UnsupportedOperator.

Variable NGRAPH_CHECK : Node -> bool -> string -> Outcome unit.

(** All that is asked of the macro: a check whose condition holds lets
    control through. *)
Hypothesis NGRAPH_CHECK_holds :
  forall (ctx : Node) (text : string), NGRAPH_CHECK ctx true text = Returned tt.

Lemma createOp_MVN_throws (pass : NgDialectConversionPass) (ngNode : Node) :
  type_info ngNode = "v0::MVN" ->
  createOp_MVN NGRAPH_CHECK pass ngNode
  = (Threw (unsupported_op "Unsupported op 'v0::MVN'"), pass).
Proof.
  intros Hty. unfold createOp_MVN.
  rewrite (dynamic_cast_MVN_ok ngNode Hty).
  rewrite bool_decide_eq_true_2 by discriminate.
  rewrite NGRAPH_CHECK_holds. reflexivity.
Qed.

(** C2.  Lowering a node whose operator identity is not registered throws
    the unsupported-operator condition carrying the name of that identity
    and leaves the pass, with the constructs emitted so far, as it was.
    The converter of v0::MVN, called on any v0::MVN node, throws
    unsupported_op with the text "Unsupported op 'v0::MVN'", which carries
    the name v0::MVN, and leaves the pass as it was; so does lowering such
    a node through a dispatcher that registers this converter. *)
Theorem unsupported_operator_fails_closed
    (dispatcher : gmap string Converter)
    (pass : NgDialectConversionPass) (node : Node) :
  (dispatcher !! type_info node = None ->
   exists e, lower dispatcher pass node = (Threw e, pass)
             /\ carries_name e (type_info node))
  /\ (type_info node = "v0::MVN" ->
      createOp_MVN NGRAPH_CHECK pass node
      = (Threw (unsupported_op "Unsupported op 'v0::MVN'"), pass)
      /\ carries_name (unsupported_op "Unsupported op 'v0::MVN'")
                      (type_info node)
      /\ (dispatcher !! "v0::MVN" = Some (createOp_MVN NGRAPH_CHECK) ->
          lower dispatcher pass node
          = (Threw (unsupported_op "Unsupported op 'v0::MVN'"), pass))).
Proof.
  split.
  - intros Hnone. exists (unsupported_op (type_info node)).
    unfold lower. rewrite Hnone. split; [reflexivity|].
    apply carries_name_self.
  - intros Hty. split; [exact (createOp_MVN_throws pass node Hty)|]. split.
    + rewrite Hty. exists "Unsupported op '", "'". reflexivity.
    + intros Hreg. unfold lower. rewrite Hty, Hreg.
      exact (createOp_MVN_throws pass node Hty).
Qed.

End UnsupportedOperator.

(** Witness of C2: a v0::MVN node in a pass that has emitted one construct,
    with either macro. *)
Lemma unsupported_operator_fails_closed_witness :
  let pass := mkPass [mkOperation "ng.add" [0%nat; 1%nat]] [("Add_2", 0%nat, 2%nat)] in
  let mvn := mkNode "v0::MVN" "MVN" in
  createOp_MVN check_condition pass mvn
  = (Threw (unsupported_op "Unsupported op 'v0::MVN'"), pass)
  /\ createOp_MVN check_first_argument pass mvn
     = (Threw (unsupported_op "Unsupported op 'v0::MVN'"), pass)
  /\ exists e, lower {[ "v0::MVN" := createOp_MVN check_condition ]} pass
                     (mkNode "v0::Gelu" "Gelu") = (Threw e, pass)
               /\ carries_name e "v0::Gelu".
Proof.
  intros pass mvn. split; [|split].
  - exact (proj1 (proj2 (unsupported_operator_fails_closed check_condition
             (fun _ _ => eq_refl) ∅ pass mvn) eq_refl)).
  - exact (proj1 (proj2 (unsupported_operator_fails_closed check_first_argument
             (fun _ _ => eq_refl) ∅ pass mvn) eq_refl)).
  - exact (proj1 (unsupported_operator_fails_closed check_condition
             (fun _ _ => eq_refl) {[ "v0::MVN" := createOp_MVN check_condition ]}
             pass (mkNode "v0::Gelu" "Gelu")) eq_refl).
Defined.

(** A node that is not a v0::MVN, handed to the converter: the macro that
    tests the condition reports the mismatch instead. *)
Lemma createOp_MVN_on_other_node :
  createOp_MVN check_condition (mkPass [] []) (mkNode "v0::Gelu" "Gelu")
  = (Threw (CheckFailure "ngNode Gelu is not a v0::MVN"), mkPass [] []).
Proof. reflexivity. Qed.

(** ** Defaults of the LSTMCell constructor *)

Section Construction.

Variable more_names : list string.
Variable sizes_agree : LSTMCell.Args -> bool.
Variable zero_tensor : Z -> Node.

(** C9.  A call of the LSTMCell constructor that stops after [P] is the call
    with the activations (sigmoid, tanh, tanh), no alpha and beta
    parameters, clip 0 and input_forget false, and it constructs what the
    call with those values written out constructs.  Where the hidden sizes
    of the inputs agree the construction succeeds, and the cell has the
    gate activation sigmoid, the cell-input and output activations tanh,
    none with shaping parameters, clip 0 and input_forget false; where they
    do not agree it throws.  The overload without bias, peepholes and
    attributes constructs the same cell over zero tensors for B and P. *)
Theorem LSTMCell_defaults
    (X W R H_t C_t : Node) (hidden_size : Z) (B P : Node) :
  let args :=
    LSTMCell.complete X W R H_t C_t hidden_size B P LSTMCell.omitted in
  let build := LSTMCell.LSTMCell more_names sizes_agree in
  let plain := LSTMCell.LSTMCell_plain more_names sizes_agree zero_tensor in
  let sigmoid := LSTMCell.mkActivation "sigmoid" None None in
  let tanh := LSTMCell.mkActivation "tanh" None None in
  let zero_B := zero_tensor (8 * hidden_size) in
  let zero_P := zero_tensor (3 * hidden_size) in
  (LSTMCell.activations args = ["sigmoid"; "tanh"; "tanh"]
   /\ LSTMCell.activation_alpha args = []
   /\ LSTMCell.activation_beta args = []
   /\ LSTMCell.clip args = S754_zero false
   /\ LSTMCell.input_forget args = false)
  /\ build X W R H_t C_t hidden_size B P LSTMCell.omitted
     = build X W R H_t C_t hidden_size B P
         (LSTMCell.explicit ["sigmoid"; "tanh"; "tanh"] [] []
                            (float_of_Z 24 128 0) false)
  /\ (sizes_agree args = true ->
      build X W R H_t C_t hidden_size B P LSTMCell.omitted
      = Returned (LSTMCell.mkCell X W R H_t C_t hidden_size B P
                    sigmoid tanh tanh (S754_zero false) false))
  /\ (sizes_agree args = false ->
      exists e, build X W R H_t C_t hidden_size B P LSTMCell.omitted = Threw e)
  /\ plain X W R H_t C_t hidden_size
     = build X W R H_t C_t hidden_size zero_B zero_P
         (LSTMCell.explicit ["sigmoid"; "tanh"; "tanh"] [] []
                            (float_of_Z 24 128 0) false)
  /\ (sizes_agree (LSTMCell.complete X W R H_t C_t hidden_size zero_B zero_P
                                     LSTMCell.omitted) = true ->
      plain X W R H_t C_t hidden_size
      = Returned (LSTMCell.mkCell X W R H_t C_t hidden_size zero_B zero_P
                    sigmoid tanh tanh (S754_zero false) false)).
Proof.
  cbv zeta. split; [repeat split|]. split; [reflexivity|].
  unfold LSTMCell.LSTMCell_plain, LSTMCell.LSTMCell. simpl.
  split; [|split; [|split]].
  - intros ->. reflexivity.
  - intros ->. eexists. reflexivity.
  - reflexivity.
  - intros ->. reflexivity.
Qed.

End Construction.

(** Witness of C9, with no further activation names, inputs whose sizes
    agree and a constant node for the zero tensors. *)
Lemma LSTMCell_defaults_witness :
  let n := mkNode "v0::Parameter" "Parameter" in
  LSTMCell.LSTMCell [] (fun _ => true) n n n n n 3 n n LSTMCell.omitted
  = Returned (LSTMCell.mkCell n n n n n 3 n n
                (LSTMCell.mkActivation "sigmoid" None None)
                (LSTMCell.mkActivation "tanh" None None)
                (LSTMCell.mkActivation "tanh" None None)
                (S754_zero false) false).
Proof.
  intros n.
  exact (proj1 (proj2 (proj2
           (LSTMCell_defaults [] (fun _ => true)
              (fun _ => mkNode "v0::Constant" "Constant") n n n n n 3 n n)))
           eq_refl).
Defined.

(** Construction rejects what the design document lists: two activations,
    an unknown name, a negative clip. *)
Example LSTMCell_rejects :
  let n := mkNode "v0::Parameter" "Parameter" in
  let build := LSTMCell.LSTMCell [] (fun _ => true) n n n n n 3 n n in
  build (LSTMCell.upto_activations ["sigmoid"; "tanh"])
  = Threw (CheckFailure "activation list of the wrong length")
  /\ build (LSTMCell.upto_activations ["sigmoid"; "tanh"; "softsign"])
     = Threw (CheckFailure "unrecognized activation name")
  /\ build (LSTMCell.upto_clip ["sigmoid"; "tanh"; "tanh"] [] []
                               (float_of_Z 24 128 (-1)))
     = Threw (CheckFailure "negative clip value").
Proof. repeat split. Qed.

(** * Further properties of the interface *)

(** ** What a run can and cannot change *)

Section Runs.

Variable transport : MPI_Call -> gmap ptr (list spec_float)
                     -> gmap ptr (list spec_float).

Lemma MPI_answer_initialized (c : MPI_Call) (s : Process) :
  mpi_initialized s = true ->
  mpi_initialized (MPI_answer transport c s).2 = true.
Proof. destruct s, c; simpl; intros H; try exact H; reflexivity. Qed.

Lemma run_initialized {A : Type} (p : Proc A) (s : Process) :
  mpi_initialized s = true ->
  mpi_initialized (run transport p s).2 = true.
Proof.
  revert s. induction p as [a|e|c k IH]; intros s Hs; simpl; auto.
  pose proof (MPI_answer_initialized c s Hs) as Hc.
  destruct (MPI_answer transport c s) as [z s']. apply IH. exact Hc.
Qed.

Lemma MPI_answer_no_lifecycle (c : MPI_Call) (s : Process) :
  is_init c = false -> is_finalize c = false ->
  let s' := (MPI_answer transport c s).2 in
  mpi_initialized s' = mpi_initialized s
  /\ mpi_finalized s' = mpi_finalized s
  /\ init_calls s' = init_calls s
  /\ finalize_calls s' = finalize_calls s.
Proof.
  unfold init_calls, finalize_calls.
  destruct s, c; simpl; intros Hi Hf; try discriminate;
    rewrite !count_calls_snoc; simpl; repeat split; lia.
Qed.

Lemma run_no_lifecycle {A : Type} (p : Proc A) (s : Process) :
  no_lifecycle p ->
  let s' := (run transport p s).2 in
  mpi_initialized s' = mpi_initialized s
  /\ mpi_finalized s' = mpi_finalized s
  /\ init_calls s' = init_calls s
  /\ finalize_calls s' = finalize_calls s.
Proof.
  intros Hp. revert s.
  induction Hp as [a|e|c k Hi Hf Hk IH]; intros s; simpl; auto.
  pose proof (MPI_answer_no_lifecycle c s Hi Hf) as (H1 & H2 & H3 & H4).
  destruct (MPI_answer transport c s) as [z s']. simpl in H1, H2, H3, H4.
  destruct (IH z s') as (K1 & K2 & K3 & K4).
  rewrite K1, K2, K3, K4. auto.
Qed.

Lemma run_ctor_owning (name : string) (s : Process) :
  run transport (ctor name true) s =
  if mpi_initialized s then
    (Threw (AssertionFailure
       "Expect to initial MPI comunicator, but MPI had been initialized."),
     log_call MPI_Initialized s)
  else
    (Returned (mkOpenMPI name true true 0 0),
     set_initialized (log_call MPI_Init (log_call MPI_Initialized s))).
Proof. destruct s as [[] fin rk sz lg mem]; reflexivity. Qed.

Lemma run_ctor_borrowing (name : string) (s : Process) :
  run transport (ctor name false) s =
  (if mpi_initialized s then
     Threw (AssertionFailure
       "Expect to reuse existing MPI comunicator, but MPI has not been initialized.")
   else Returned (mkOpenMPI name false false 0 0),
   log_call MPI_Initialized s).
Proof. destruct s as [[] fin rk sz lg mem]; reflexivity. Qed.

Lemma run_dtor (this : OpenMPIDistributedInterface) (s : Process) :
  run transport (dtor this) s =
  if m_manage_communicator this then
    if negb (mpi_finalized s) && m_initialized_mpi this then
      (Returned (set_m_initialized_mpi false this),
       set_finalized (log_call MPI_Finalize (log_call MPI_Finalized s)))
    else (Returned this, log_call MPI_Finalized s)
  else (Returned this, s).
Proof.
  destruct s as [ini [] rk sz lg mem], this as [nm [] [] r z]; reflexivity.
Qed.

(** X1.  The life of an owner.  In a process where MPI has not been started,
    an owning constructor returns; whatever work follows, as long as it
    makes no MPI_Init and no MPI_Finalize call of its own, the destructor
    then returns too, and over the whole life MPI_Init was called exactly
    once and MPI_Finalize exactly once, leaving MPI initialized and
    finalized. *)
Theorem owner_lifetime {A : Type} (name : string) (work : Proc A)
    (s : Process) :
  mpi_initialized s = false -> mpi_finalized s = false ->
  no_lifecycle work ->
  let r1 := run transport (ctor name true) s in
  exists this,
    r1.1 = Returned this
    /\ let r2 := run transport work r1.2 in
       let r3 := run transport (dtor this) r2.2 in
       r3.1 = Returned (mkOpenMPI name false true 0 0)
       /\ init_calls r3.2 = S (init_calls s)
       /\ finalize_calls r3.2 = S (finalize_calls s)
       /\ mpi_initialized r3.2 = true
       /\ mpi_finalized r3.2 = true.
Proof.
  intros Hi Hf Hwork. cbv zeta. rewrite run_ctor_owning, Hi. simpl.
  eexists. split; [reflexivity|].
  set (s1 := set_initialized (log_call MPI_Init (log_call MPI_Initialized s))).
  destruct (run_no_lifecycle work s1 Hwork) as (K1 & K2 & K3 & K4).
  set (s2 := (run transport work s1).2) in *.
  assert (Hf2 : mpi_finalized s2 = false).
  { rewrite K2. destruct s; simpl in *. exact Hf. }
  assert (Hi2 : mpi_initialized s2 = true).
  { rewrite K1. reflexivity. }
  rewrite run_dtor. simpl. rewrite Hf2. simpl.
  split; [reflexivity|].
  unfold init_calls, finalize_calls in *. simpl.
  rewrite !count_calls_snoc. simpl. rewrite K3, K4.
  subst s1. simpl. rewrite !count_calls_snoc. simpl.
  repeat split; try lia. exact Hi2.
Qed.

(** X2.  Only one owner per process.  Once an owning constructor has
    returned, a later owning constructor throws the assertion failure and
    calls MPI_Init no more, whatever the process did in between (the
    destruction of the first owner included). *)
Theorem second_owner_rejected {A : Type} (name name' : string)
    (between : Proc A) (s : Process) (this : OpenMPIDistributedInterface) :
  (run transport (ctor name true) s).1 = Returned this ->
  let s1 := (run transport (ctor name true) s).2 in
  let s2 := (run transport between s1).2 in
  let r := run transport (ctor name' true) s2 in
  r.1 = Threw (AssertionFailure
          "Expect to initial MPI comunicator, but MPI had been initialized.")
  /\ init_calls r.2 = init_calls s2.
Proof.
  intros Hret. cbv zeta.
  assert (H1 : mpi_initialized (run transport (ctor name true) s).2 = true).
  { rewrite run_ctor_owning in *. destruct (mpi_initialized s).
    - discriminate Hret.
    - reflexivity. }
  pose proof (run_initialized between _ H1) as H2.
  rewrite (run_ctor_owning name'), H2. simpl. split; [reflexivity|].
  unfold init_calls. simpl. rewrite count_calls_snoc. simpl. lia.
Qed.

(** X3.  A borrowing constructor never starts or stops MPI: in every
    process state, whether it returns or throws, it makes the one call
    MPI_Initialized and nothing else, and the destructor of the object it
    returns makes no call at all. *)
Theorem borrower_makes_no_lifecycle_call (name : string) (s : Process) :
  let r := run transport (ctor name false) s in
  mpi_log r.2 = mpi_log s ++ [MPI_Initialized]
  /\ mpi_initialized r.2 = mpi_initialized s
  /\ mpi_finalized r.2 = mpi_finalized s
  /\ memory r.2 = memory s
  /\ forall this s', r.1 = Returned this ->
       run transport (dtor this) s' = (Returned this, s').
Proof.
  cbv zeta. rewrite run_ctor_borrowing. simpl.
  repeat split; try (destruct s; reflexivity).
  intros this s' Hthis. destruct (mpi_initialized s); [discriminate|].
  injection Hthis as <-. reflexivity.
Qed.

(** X4.  Construction and destruction leave every buffer of the process
    alone, whatever the transport does; the constructor never calls
    MPI_Finalize and the destructor never calls MPI_Init. *)
Theorem lifecycle_leaves_buffers (name : string) (manage_communicator : bool)
    (this : OpenMPIDistributedInterface) (s : Process) :
  let rc := run transport (ctor name manage_communicator) s in
  let rd := run transport (dtor this) s in
  memory rc.2 = memory s
  /\ finalize_calls rc.2 = finalize_calls s
  /\ mpi_finalized rc.2 = mpi_finalized s
  /\ memory rd.2 = memory s
  /\ init_calls rd.2 = init_calls s
  /\ mpi_initialized rd.2 = mpi_initialized s.
Proof.
  cbv zeta. rewrite run_dtor. unfold init_calls, finalize_calls.
  destruct manage_communicator;
    [rewrite run_ctor_owning | rewrite run_ctor_borrowing];
    destruct s as [[] [] rk sz lg mem], this as [nm [] [] r z]; simpl;
    rewrite ?count_calls_snoc; simpl; repeat split; lia.
Qed.

(** X5.  The destructor calls MPI_Finalize exactly when the object manages
    the communicator, has initialized MPI itself and MPI is not finalized
    yet; in particular an owner that did not initialize MPI never
    finalizes it. *)
Theorem dtor_finalizes_iff (this : OpenMPIDistributedInterface) (s : Process) :
  let r := run transport (dtor this) s in
  (finalize_calls r.2 = S (finalize_calls s) <->
   m_manage_communicator this = true /\ m_initialized_mpi this = true
   /\ mpi_finalized s = false)
  /\ (finalize_calls r.2 = finalize_calls s \/
      finalize_calls r.2 = S (finalize_calls s))
  /\ (mpi_finalized r.2 = true <->
      mpi_finalized s = true \/
      (m_manage_communicator this = true /\ m_initialized_mpi this = true)).
Proof.
  cbv zeta. rewrite run_dtor. unfold finalize_calls.
  destruct s as [ini [] rk sz lg mem], this as [nm [] [] r z]; simpl;
    rewrite ?count_calls_snoc; simpl;
    (split; [|split]); try split; try tauto; try lia;
      try (intros (? & ? & ?); discriminate);
      try (intros [?|(? & ?)]; discriminate).
Qed.

(** X12.  Every object the constructor returns carries the name and the
    mode it was given, claims the initialization of MPI exactly when it
    manages the communicator, and has [m_rank] and [m_size] at 0; the
    destructor keeps the name and the mode and keeps the object
    consistent. *)
Theorem constructed_object (name : string) (manage_communicator : bool)
    (s s' : Process) (this : OpenMPIDistributedInterface) :
  (run transport (ctor name manage_communicator) s).1 = Returned this ->
  get_name this = name
  /\ m_manage_communicator this = manage_communicator
  /\ m_initialized_mpi this = manage_communicator
  /\ m_rank this = 0 /\ m_size this = 0
  /\ consistent this
  /\ exists this',
       (run transport (dtor this) s').1 = Returned this'
       /\ get_name this' = name
       /\ m_manage_communicator this' = manage_communicator
       /\ consistent this'.
Proof.
  intros Hret. destruct manage_communicator.
  - rewrite run_ctor_owning in Hret. destruct (mpi_initialized s);
      [discriminate|]. injection Hret as <-.
    repeat (split; [reflexivity|]). split; [intros _; reflexivity|].
    rewrite run_dtor. simpl. destruct (mpi_finalized s'); simpl;
      eexists; repeat split.
  - rewrite run_ctor_borrowing in Hret. destruct (mpi_initialized s);
      [discriminate|]. injection Hret as <-.
    repeat (split; [reflexivity|]). split; [intros H; discriminate H|].
    rewrite run_dtor. simpl. eexists. repeat split. intros H. discriminate H.
Qed.

End Runs.

Lemma all_reduce_no_lifecycle (in_ out : ptr) (et : element.Type_t)
    (rt : reduction.Type') (count : Z) :
  no_lifecycle (all_reduce in_ out et rt count).
Proof.
  rewrite all_reduce_cases.
  destruct et; repeat constructor.
Qed.

Lemma broadcast_no_lifecycle (in_ : ptr) (et : element.Type_t)
    (count root_id : Z) :
  no_lifecycle (broadcast in_ et count root_id).
Proof. destruct et; repeat constructor. Qed.

Lemma send_no_lifecycle (in_ : ptr) (et : element.Type_t) (count dest_id : Z) :
  no_lifecycle (send in_ et count dest_id).
Proof. destruct et; repeat constructor. Qed.

Lemma recv_no_lifecycle (in_ : ptr) (et : element.Type_t) (count src_id : Z) :
  no_lifecycle (recv in_ et count src_id).
Proof. destruct et; repeat constructor. Qed.

Lemma log_print_no_lifecycle (timestamp : string) (buf : list ascii) :
  no_lifecycle (log_print timestamp buf).
Proof. repeat constructor. Qed.

Lemma owner_lifetime_witness :
  let work := all_reduce 1%nat 2%nat element.f32 reduction.SUM 3 in
  let r1 := run (collective []) (ctor "OpenMPI" true) fresh_process in
  exists this,
    r1.1 = Returned this
    /\ init_calls (run (collective []) (dtor this)
                       (run (collective []) work r1.2).2).2 = 1%nat
    /\ finalize_calls (run (collective []) (dtor this)
                           (run (collective []) work r1.2).2).2 = 1%nat.
Proof.
  intros work r1.
  destruct (owner_lifetime (collective []) "OpenMPI" work fresh_process
              eq_refl eq_refl
              (all_reduce_no_lifecycle 1%nat 2%nat element.f32 reduction.SUM 3))
    as (this & Hthis & _ & Hi & Hf & _).
  exists this. split; [exact Hthis|]. split; [exact Hi | exact Hf].
Defined.

Lemma second_owner_rejected_witness :
  let s1 := (run no_transport (ctor "first" true) fresh_process).2 in
  let s2 := (run no_transport (dtor (mkOpenMPI "first" true true 0 0)) s1).2 in
  (run no_transport (ctor "second" true) s2).1
  = Threw (AssertionFailure
      "Expect to initial MPI comunicator, but MPI had been initialized.").
Proof.
  intros s1 s2.
  exact (proj1 (second_owner_rejected no_transport "first" "second"
                  (dtor (mkOpenMPI "first" true true 0 0)) fresh_process
                  (mkOpenMPI "first" true true 0 0) eq_refl)).
Defined.

Lemma borrower_makes_no_lifecycle_call_witness :
  run no_transport (dtor (mkOpenMPI "guest" false false 0 0)) (rank_process 1)
  = (Returned (mkOpenMPI "guest" false false 0 0), rank_process 1).
Proof.
  exact (proj2 (proj2 (proj2 (proj2
           (borrower_makes_no_lifecycle_call no_transport "guest"
              fresh_process))))
           (mkOpenMPI "guest" false false 0 0) (rank_process 1) eq_refl).
Defined.

Lemma constructed_object_witness :
  get_name (mkOpenMPI "ranks" true true 0 0) = "ranks"
  /\ consistent (mkOpenMPI "ranks" true true 0 0).
Proof.
  pose proof (constructed_object no_transport "ranks" true fresh_process
                fresh_process (mkOpenMPI "ranks" true true 0 0) eq_refl)
    as (Hn & _ & _ & _ & _ & Hc & _).
  split; [exact Hn | exact Hc].
Defined.

(** ** The operations of the interface *)

(** X6.  No operation of the interface starts or stops MPI: [all_reduce],
    [broadcast], [send], [recv], [get_size], [get_rank] and [log_print],
    with any arguments and under any transport, make no MPI_Init and no
    MPI_Finalize call and leave the initialized and finalized state of MPI
    as it was. *)
Theorem operations_keep_lifecycle
    (transport : MPI_Call -> gmap ptr (list spec_float)
                 -> gmap ptr (list spec_float))
    (in_ out : ptr) (et : element.Type_t) (rt : reduction.Type')
    (count peer : Z) (timestamp : string) (buf : list ascii) (s : Process) :
  let unchanged (s' : Process) :=
    mpi_initialized s' = mpi_initialized s
    /\ mpi_finalized s' = mpi_finalized s
    /\ init_calls s' = init_calls s
    /\ finalize_calls s' = finalize_calls s in
  unchanged (run transport (all_reduce in_ out et rt count) s).2
  /\ unchanged (run transport (broadcast in_ et count peer) s).2
  /\ unchanged (run transport (send in_ et count peer) s).2
  /\ unchanged (run transport (recv in_ et count peer) s).2
  /\ unchanged (run transport get_size s).2
  /\ unchanged (run transport get_rank s).2
  /\ unchanged (run transport (log_print timestamp buf) s).2.
Proof.
  cbv zeta.
  split; [apply run_no_lifecycle, all_reduce_no_lifecycle|].
  split; [apply run_no_lifecycle, broadcast_no_lifecycle|].
  split; [apply run_no_lifecycle, send_no_lifecycle|].
  split; [apply run_no_lifecycle, recv_no_lifecycle|].
  split; [apply run_no_lifecycle; repeat constructor|].
  split; [apply run_no_lifecycle; repeat constructor|].
  apply run_no_lifecycle, log_print_no_lifecycle.
Qed.

(** X7.  [broadcast], [send] and [recv] are atomic on an element type they
    do not support.  [broadcast] on a type other than f32 and f64 throws
    the runtime error "BroadcastDistributed op supports only f32 and f64
    types", [send] and [recv] on undefined and dynamic throw the runtime
    error "unsupported type"; each throws before any transport call and the
    run leaves the process, its call log and its buffers as they were. *)
Theorem unsupported_transfer_is_atomic
    (transport : MPI_Call -> gmap ptr (list spec_float)
                 -> gmap ptr (list spec_float))
    (in_ : ptr) (et : element.Type_t) (count peer : Z) (s : Process) :
  (et <> element.f32 -> et <> element.f64 ->
   (forall answers, calls_of answers (broadcast in_ et count peer) = [])
   /\ run transport (broadcast in_ et count peer) s
      = (Threw (runtime_error
                  "BroadcastDistributed op supports only f32 and f64 types"),
         s))
  /\ (et = element.undefined \/ et = element.dynamic ->
      (forall answers, calls_of answers (send in_ et count peer) = [])
      /\ (forall answers, calls_of answers (recv in_ et count peer) = [])
      /\ run transport (send in_ et count peer) s
         = (Threw (runtime_error "unsupported type"), s)
      /\ run transport (recv in_ et count peer) s
         = (Threw (runtime_error "unsupported type"), s)).
Proof.
  split.
  - intros H32 H64. destruct et; try contradiction; split; reflexivity.
  - intros [-> | ->]; repeat split.
Qed.

Lemma unsupported_transfer_is_atomic_witness :
  run (collective [[S754_zero false]])
      (broadcast 1%nat element.i64 4 0) (rank_process 2)
  = (Threw (runtime_error
              "BroadcastDistributed op supports only f32 and f64 types"),
     rank_process 2)
  /\ run (collective [[S754_zero false]])
         (send 1%nat element.dynamic 4 0) (rank_process 2)
     = (Threw (runtime_error "unsupported type"), rank_process 2).
Proof.
  pose proof (unsupported_transfer_is_atomic (collective [[S754_zero false]])
                1%nat element.i64 4 0 (rank_process 2)) as [Hb _].
  pose proof (unsupported_transfer_is_atomic (collective [[S754_zero false]])
                1%nat element.dynamic 4 0 (rank_process 2)) as [_ Hs].
  split.
  - exact (proj2 (Hb ltac:(discriminate) ltac:(discriminate))).
  - exact (proj1 (proj2 (proj2 (Hs (or_intror eq_refl))))).
Defined.

(** X8.  Whatever the collectives accept, the point-to-point operations
    accept with the same MPI datatype: when [all_reduce] makes its call for
    an element type, [broadcast], [send] and [recv] make theirs for that
    type, all with the datatype of the [all_reduce] call.  The converse
    fails: i32 can be sent and cannot be reduced. *)
Theorem collective_types_can_be_sent
    (in_ out : ptr) (et : element.Type_t) (rt : reduction.Type')
    (count peer : Z) (c : MPI_Call) :
  issues (all_reduce in_ out et rt count) c ->
  (exists dt,
     c = MPI_Allreduce in_ out (int_of_size_t count) dt
                       (mpi_reduce_type_of rt) MPI_COMM_WORLD
     /\ issues (broadcast in_ et count peer)
               (MPI_Bcast in_ (int_of_size_t count) dt peer MPI_COMM_WORLD)
     /\ issues (send in_ et count peer)
               (MPI_Send in_ (int_of_size_t count) dt peer 0 MPI_COMM_WORLD)
     /\ issues (recv in_ et count peer)
               (MPI_Recv in_ (int_of_size_t count) dt peer 0 MPI_COMM_WORLD))
  /\ (exists c', issues (send in_ element.i32 count peer) c')
  /\ ~ (exists c', issues (all_reduce in_ out element.i32 rt count) c').
Proof.
  unfold issues. intros Hc. split; [|split].
  - rewrite all_reduce_cases in Hc.
    destruct et; try discriminate Hc; injection Hc as <-;
      eexists; repeat split.
  - eexists. reflexivity.
  - intros [c' Hc']. discriminate Hc'.
Qed.

Lemma collective_types_can_be_sent_witness :
  issues (send 5%nat element.f64 8 3)
         (MPI_Send 5%nat 8 MPI_DOUBLE 3 0 MPI_COMM_WORLD).
Proof.
  destruct (collective_types_can_be_sent 5%nat 6%nat element.f64
              reduction.MAX 8 3 _ eq_refl) as [(dt & Hc & _ & Hs & _) _].
  injection Hc as <-. exact Hs.
Defined.

(** X9.  The helper [ngraph_type_to_mpi_type] makes no transport call: it
    returns a datatype or throws.  It throws the runtime error "unsupported
    type" exactly for bf16, f16, undefined and dynamic.  Where it returns a
    datatype, [send] and [recv] transfer with that datatype; for undefined
    and dynamic they throw the helper's error; bf16 and f16, which the
    helper rejects, they transfer as MPI_SHORT all the same. *)
Theorem helper_and_transfers (in_ : ptr) (et : element.Type_t)
    (count peer : Z) :
  let rejected :=
    et = element.bf16 \/ et = element.f16
    \/ et = element.undefined \/ et = element.dynamic in
  (ngraph_type_to_mpi_type et = Throw (runtime_error "unsupported type")
   <-> rejected)
  /\ ((exists dt, ngraph_type_to_mpi_type et = Ret dt) <-> ~ rejected)
  /\ (forall dt, ngraph_type_to_mpi_type et = Ret dt ->
        issues (send in_ et count peer)
               (MPI_Send in_ (int_of_size_t count) dt peer 0 MPI_COMM_WORLD)
        /\ issues (recv in_ et count peer)
                  (MPI_Recv in_ (int_of_size_t count) dt peer 0
                            MPI_COMM_WORLD))
  /\ (et = element.bf16 \/ et = element.f16 ->
      issues (send in_ et count peer)
             (MPI_Send in_ (int_of_size_t count) MPI_SHORT peer 0
                       MPI_COMM_WORLD)
      /\ issues (recv in_ et count peer)
                (MPI_Recv in_ (int_of_size_t count) MPI_SHORT peer 0
                          MPI_COMM_WORLD))
  /\ (et = element.undefined \/ et = element.dynamic ->
      send in_ et count peer = ngraph_type_to_mpi_type et ≫= (fun _ => Ret tt)
      /\ send in_ et count peer = Throw (runtime_error "unsupported type")
      /\ recv in_ et count peer = Throw (runtime_error "unsupported type")).
Proof.
  cbv zeta. unfold issues. split; [|split; [|split; [|split]]].
  - destruct et; simpl; split; intros H; try discriminate H; auto;
      try reflexivity;
      destruct H as [H|[H|[H|H]]]; discriminate H.
  - destruct et; simpl; split.
    all: try (intros [dt H]; discriminate H).
    all: try (intros _ [H|[H|[H|H]]]; discriminate H).
    all: try (intros _; eexists; reflexivity).
    all: intros H; exfalso; apply H; auto.
  - intros dt H. destruct et; simpl in H; try discriminate H;
      injection H as <-; split; reflexivity.
  - intros [-> | ->]; split; reflexivity.
  - intros [-> | ->]; repeat split.
Qed.

Lemma helper_and_transfers_witness :
  ngraph_type_to_mpi_type element.f16 = Throw (runtime_error "unsupported type")
  /\ issues (send 2%nat element.f16 8 1)
            (MPI_Send 2%nat 8 MPI_SHORT 1 0 MPI_COMM_WORLD)
  /\ issues (send 2%nat element.u16 8 1)
            (MPI_Send 2%nat 8 MPI_UNSIGNED_SHORT 1 0 MPI_COMM_WORLD).
Proof.
  pose proof (helper_and_transfers 2%nat element.f16 8 1)
    as (Hthrow & _ & _ & Hshort & _).
  pose proof (helper_and_transfers 2%nat element.u16 8 1)
    as (_ & _ & Hdt & _).
  split; [|split].
  - apply Hthrow. right. left. reflexivity.
  - exact (proj1 (Hshort (or_intror eq_refl))).
  - exact (proj1 (Hdt MPI_UNSIGNED_SHORT eq_refl)).
Defined.

(** The datatype [send] and [recv] transfer an element type with. *)
Lemma send_cases (in_ : ptr) (et : element.Type_t) (count dest_id : Z) :
  send in_ et count dest_id =
  bind (ngraph_type_to_mpi_type
          (match et with
           | element.bf16 | element.f16 => element.i16
           | _ => et
           end))
       (fun dt => Call (MPI_Send in_ (int_of_size_t count) dt dest_id 0
                                 MPI_COMM_WORLD) (fun _ => Ret tt)).
Proof. destruct et; reflexivity. Qed.

(** X10.  The MPI datatype of a transfer does not always tell the element
    type: boolean and i8 both travel as MPI_BYTE, and i16, bf16 and f16 all
    travel as MPI_SHORT.  These are the only collisions: any two other
    element types that [send] accepts get different datatypes. *)
Theorem send_datatype_collisions (in_ : ptr) (a b : element.Type_t)
    (count peer : Z) (dt : MPI_Datatype) :
  issues (send in_ a count peer)
         (MPI_Send in_ (int_of_size_t count) dt peer 0 MPI_COMM_WORLD) ->
  issues (send in_ b count peer)
         (MPI_Send in_ (int_of_size_t count) dt peer 0 MPI_COMM_WORLD) ->
  a = b
  \/ (dt = MPI_BYTE
      /\ (a = element.boolean \/ a = element.i8)
      /\ (b = element.boolean \/ b = element.i8))
  \/ (dt = MPI_SHORT
      /\ (a = element.i16 \/ a = element.bf16 \/ a = element.f16)
      /\ (b = element.i16 \/ b = element.bf16 \/ b = element.f16)).
Proof.
  unfold issues. rewrite !send_cases. intros Ha Hb.
  destruct a; simpl in Ha; try discriminate Ha; injection Ha as <-;
    destruct b; simpl in Hb; try discriminate Hb; auto 10.
Qed.

Lemma send_datatype_collisions_witness :
  element.boolean = element.i8
  \/ (MPI_BYTE = MPI_BYTE
      /\ (element.boolean = element.boolean \/ element.boolean = element.i8)
      /\ (element.i8 = element.boolean \/ element.i8 = element.i8))
  \/ (MPI_BYTE = MPI_SHORT
      /\ (element.boolean = element.i16 \/ element.boolean = element.bf16
          \/ element.boolean = element.f16)
      /\ (element.i8 = element.i16 \/ element.i8 = element.bf16
          \/ element.i8 = element.f16)).
Proof.
  exact (send_datatype_collisions 0%nat element.boolean element.i8 16 1
           MPI_BYTE eq_refl eq_refl).
Defined.

Lemma int_of_size_t_period (count : Z) :
  int_of_size_t (count + 4294967296) = int_of_size_t count.
Proof.
  unfold int_of_size_t.
  replace (count + 4294967296 + 2147483648)
    with (count + 2147483648 + 1 * 4294967296) by lia.
  rewrite Z_mod_plus_full. reflexivity.
Qed.

Lemma int_of_size_t_range (count : Z) :
  -2147483648 <= int_of_size_t count <= INT_MAX.
Proof.
  unfold int_of_size_t, INT_MAX.
  pose proof (Z.mod_pos_bound (count + 2147483648) 4294967296 eq_refl). lia.
Qed.

(** X11.  The [size_t] count of an operation reaches MPI as an [int]: the
    count of the transport call always lies in the range of [int], it is
    the count the caller gave exactly when that count does not exceed
    INT_MAX, and counts that differ by 2^32 make the same transport call. *)
Theorem count_is_narrowed (in_ out : ptr) (et : element.Type_t)
    (rt : reduction.Type') (count peer : Z) :
  -2147483648 <= int_of_size_t count <= INT_MAX
  /\ (0 <= count -> (int_of_size_t count = count <-> count <= INT_MAX))
  /\ all_reduce in_ out et rt (count + 4294967296)
     = all_reduce in_ out et rt count
  /\ broadcast in_ et (count + 4294967296) peer = broadcast in_ et count peer
  /\ send in_ et (count + 4294967296) peer = send in_ et count peer
  /\ recv in_ et (count + 4294967296) peer = recv in_ et count peer.
Proof.
  split; [apply int_of_size_t_range|]. split.
  - intros H0. split.
    + intros Heq. pose proof (int_of_size_t_range count). lia.
    + intros Hmax. apply int_of_size_t_small. lia.
  - unfold all_reduce, broadcast, send, recv.
    rewrite int_of_size_t_period. repeat split.
Qed.

Lemma count_is_narrowed_witness :
  int_of_size_t 1024 = 1024 /\ int_of_size_t 4294967297 <> 4294967297.
Proof.
  split.
  - apply (proj1 (proj2 (count_is_narrowed 0%nat 1%nat element.f32
                           reduction.SUM 1024 0)) ltac:(lia)).
    unfold INT_MAX. lia.
  - intros H.
    apply (proj1 (proj2 (count_is_narrowed 0%nat 1%nat element.f32
                           reduction.SUM 4294967297 0)) ltac:(lia)) in H.
    unfold INT_MAX in H. lia.
Defined.

(** ** The converter of v0::MVN, whatever the check macro does *)

(** X13.  The converter never builds an operation.  For every node, of type
    v0::MVN or not, and for every behaviour of the check macro, it throws,
    either what the macro threw or unsupported_op with the text
    "Unsupported op 'v0::MVN'", and it hands the pass back as it got it. *)
Theorem createOp_MVN_never_constructs
    (NGRAPH_CHECK : Node -> bool -> string -> Outcome unit)
    (pass : NgDialectConversionPass) (ngNode : Node) :
  exists e,
    createOp_MVN NGRAPH_CHECK pass ngNode = (Threw e, pass)
    /\ (e = unsupported_op "Unsupported op 'v0::MVN'"
        \/ NGRAPH_CHECK ngNode
             (bool_decide (dynamic_cast_MVN ngNode <> None))
             ("ngNode " +:+ description ngNode +:+ " is not a v0::MVN")
           = Threw e).
Proof.
  unfold createOp_MVN.
  destruct (NGRAPH_CHECK ngNode _ _) as [[]|e]; eexists; split;
    try reflexivity; auto.
Qed.

(** ** log_print *)

Lemma c_string_terminated (text : list ascii) (rest : list ascii) :
  Forall (fun c => c <> Ascii.zero) text ->
  c_string (text ++ Ascii.zero :: rest) = Some (string_of_list_ascii text).
Proof.
  induction 1 as [|c text Hc _ IH]; simpl; [reflexivity|].
  destruct (Ascii.eqb_spec c Ascii.zero) as [->|_]; [contradiction|].
  rewrite IH. reflexivity.
Qed.

(** X14.  In a process where MPI is running (initialized and not
    finalized), [log_print] on a buffer whose text a NUL ends returns
    normally after the single call MPI_Comm_rank(MPI_COMM_WORLD); it leaves
    the buffers of the process and the state of MPI as they were, and the
    line it prints is the timestamp, the rank that the transport reports
    and the text of the buffer, ended by a newline. *)
Theorem log_print_line
    (transport : MPI_Call -> gmap ptr (list spec_float)
                 -> gmap ptr (list spec_float))
    (timestamp : string) (buf : list ascii) (text : string) (s : Process) :
  mpi_initialized s = true -> mpi_finalized s = false ->
  c_string buf = Some text ->
  let r := run transport (log_print timestamp buf) s in
  r.1 = Returned (Some (c_str timestamp +:+ " [OpenMPI RANK: "
                        +:+ print_int (comm_rank s) +:+ "]: " +:+ text
                        +:+ newline))
  /\ mpi_log r.2 = mpi_log s ++ [MPI_Comm_rank MPI_COMM_WORLD]
  /\ memory r.2 = memory s
  /\ mpi_initialized r.2 = true /\ mpi_finalized r.2 = false
  /\ comm_rank r.2 = comm_rank s.
Proof.
  intros Hi Hf Htext. cbv zeta. unfold log_print. rewrite Htext.
  destruct s; simpl in *. subst. repeat split.
Qed.

Lemma log_print_line_witness :
  (run no_transport
       (log_print "12:00" (list_ascii_of_string "up" ++ [Ascii.zero]))
       (rank_process 3)).1
  = Returned (Some ("12:00 [OpenMPI RANK: 3]: up" +:+ newline)).
Proof.
  exact (proj1 (log_print_line no_transport "12:00"
                  (list_ascii_of_string "up" ++ [Ascii.zero]) "up"
                  (rank_process 3) eq_refl eq_refl eq_refl)).
Defined.

(** X15.  [log_print] prints the buffer as a C string: what follows the
    first NUL of the buffer is not printed, so two buffers that agree up to
    their first NUL give the same program and the same line. *)
Theorem log_print_stops_at_nul (timestamp : string)
    (text rest rest' : list ascii) :
  Forall (fun c => c <> Ascii.zero) text ->
  log_print timestamp (text ++ Ascii.zero :: rest)
  = log_print timestamp (text ++ Ascii.zero :: rest')
  /\ log_print timestamp (text ++ Ascii.zero :: rest)
     = Call (MPI_Comm_rank MPI_COMM_WORLD)
         (fun rank =>
            Ret (Some (c_str timestamp +:+ " [OpenMPI RANK: "
                       +:+ print_int rank +:+ "]: "
                       +:+ string_of_list_ascii text +:+ newline))).
Proof.
  intros Htext. unfold log_print.
  rewrite !(c_string_terminated text _ Htext). split; reflexivity.
Qed.

Lemma log_print_stops_at_nul_witness :
  log_print "t" (list_ascii_of_string "ok" ++ Ascii.zero
                   :: list_ascii_of_string "hidden")
  = log_print "t" (list_ascii_of_string "ok" ++ [Ascii.zero]).
Proof.
  apply (log_print_stops_at_nul "t" (list_ascii_of_string "ok")
           (list_ascii_of_string "hidden") []).
  repeat constructor; discriminate.
Defined.
